(** * Meta Ads API configuration module ([config.py])

    The module is a docstring followed by six top-level assignments: an API
    version string, a base URL built from it by an f-string, a list of field
    names and three dictionaries (retry policy, logging policy, BigQuery load
    policy).

    The development has three layers:
    - [pyval], the Python values the module builds;
    - the constants themselves, under the names of the source, followed by
      [config_module], the module body as a sequence of bindings executed
      over a namespace;
    - the string predicates ([starts_with], [occurrences], [scan]) that the
      statements about the URL and the logging format are phrased with. *)

From Stdlib Require Import ZArith String Ascii List Lia.
From stdpp Require Import gmap strings list fin_maps.

Local Open Scope string_scope.
Local Open Scope Z_scope.

(** ** Python values *)

(** The values that occur in the module: [int] and [str] literals, list
    displays and dict displays with [str] keys. *)
#[warnings="-register-all"]
Inductive pyval : Type :=
  | PyInt (n : Z)
  | PyStr (s : string)
  | PyList (items : list pyval)
  | PyDict (entries : gmap string pyval).

(** [isinstance(v, int)], [isinstance(v, str)]. *)
Definition is_int (v : pyval) : bool :=
  match v with PyInt _ => true | _ => false end.

Definition is_str (v : pyval) : bool :=
  match v with PyStr _ => true | _ => false end.

(** [isinstance(v, numbers.Number)] on the values of the model: of the four
    kinds of value only [int] is numeric. *)
Definition is_numeric (v : pyval) : bool := is_int v.

(** ** The constants of [config.py] *)

(** The docstring that opens the file (lines 1 to 3): a line feed, one line
    of text and a line feed. Strings are sequences of bytes, so the accented
    letters of the text are held as their UTF-8 encoding. *)
Definition module_docstring : string :=
  String "010"
    ("Arquivo de configuração para o projeto Meta Ads API."
     +:+ String "010" EmptyString).

Definition FB_API_VERSION : string := "v20.0".

(** The literal text of the f-string before its replacement field. *)
Definition graph_host : string := "https://graph.facebook.com/".

(** [f"https://graph.facebook.com/{v}"] for a [str] value [v]: a replacement
    field without conversion or format spec inserts the string itself. *)
Definition base_url_of (v : string) : string := graph_host +:+ v.

Definition FB_BASE_URL : string := base_url_of FB_API_VERSION.

Definition DEFAULT_API_FIELDS : list string :=
  [ "spend";
    "cpc";
    "cpm";
    "objective";
    "adset_name";
    "adset_id";
    "clicks";
    "campaign_name";
    "campaign_id";
    "conversions";
    "frequency";
    "conversion_values";
    "ad_name";
    "ad_id" ].

(** A dict display [{k1: v1, ..., kn: vn}]: the items are inserted from left
    to right, a later item replacing an earlier one with the same key. *)
Definition dict_display (items : list (string * pyval)) : gmap string pyval :=
  foldl (fun d kv => <[kv.1 := kv.2]> d) ∅ items.

Definition API_RETRY_CONFIG : gmap string pyval :=
  dict_display
    [ ("total", PyInt 3);
      ("backoff_factor", PyInt 1);
      ("status_forcelist", PyList [PyInt 500; PyInt 502; PyInt 503; PyInt 504]) ].

Definition LOGGING_CONFIG : gmap string pyval :=
  dict_display
    [ ("level", PyStr "INFO");
      ("format", PyStr "%(asctime)s - %(levelname)s - %(message)s");
      ("handlers", PyList [PyStr "FileHandler"; PyStr "StreamHandler"]);
      ("log_file", PyStr "meta_ads.log") ].

Definition BIGQUERY_CONFIG : gmap string pyval :=
  dict_display
    [ ("if_exists", PyStr "replace");
      ("chunksize", PyInt 10000) ].

(** ** The module body as a sequence of bindings *)

(** A top-level assignment [target = rhs]. The right-hand side is evaluated
    in the namespace built so far; [None] stands for the exception Python
    raises when a name it reads is unbound, or when the value read is not
    one the expression is modelled for. *)
Record binding : Type := Bind {
  target : string;
  rhs : gmap string pyval -> option pyval
}.

Definition exec_binding (b : binding) (ns : gmap string pyval)
  : option (gmap string pyval) :=
  match rhs b ns with
  | Some v => Some (<[target b := v]> ns)
  | None => None
  end.

Fixpoint exec (body : list binding) (ns : gmap string pyval)
  : option (gmap string pyval) :=
  match body with
  | [] => Some ns
  | b :: rest =>
      match exec_binding b ns with
      | Some ns' => exec rest ns'
      | None => None
      end
  end.

(** A literal right-hand side reads nothing. *)
Definition literal (v : pyval) : gmap string pyval -> option pyval :=
  fun _ => Some v.

(** The f-string of [FB_BASE_URL]: it reads the name [FB_API_VERSION]. Only
    the formatting of a [str] is modelled; on any other value Python would
    format the object, and the [None] returned here says nothing about that
    case, which the module never reaches. *)
Definition base_url_fstring (ns : gmap string pyval) : option pyval :=
  match ns !! "FB_API_VERSION" with
  | Some (PyStr v) => Some (PyStr (base_url_of v))
  | _ => None
  end.

(** The statements of the module, in source order: the docstring, which is
    stored under [__doc__], and the six assignments. The namespace they run
    in already holds what the import system provides ([__name__] and the
    like), so the statements below quantify over the initial namespace. *)
Definition config_module : list binding :=
  [ Bind "__doc__" (literal (PyStr module_docstring));
    Bind "FB_API_VERSION" (literal (PyStr FB_API_VERSION));
    Bind "FB_BASE_URL" base_url_fstring;
    Bind "DEFAULT_API_FIELDS" (literal (PyList (PyStr <$> DEFAULT_API_FIELDS)));
    Bind "API_RETRY_CONFIG" (literal (PyDict API_RETRY_CONFIG));
    Bind "LOGGING_CONFIG" (literal (PyDict LOGGING_CONFIG));
    Bind "BIGQUERY_CONFIG" (literal (PyDict BIGQUERY_CONFIG)) ].

(** The names the module body has bound when it ends. *)
Definition config_namespace : gmap string pyval :=
  dict_display
    [ ("__doc__", PyStr module_docstring);
      ("FB_API_VERSION", PyStr FB_API_VERSION);
      ("FB_BASE_URL", PyStr FB_BASE_URL);
      ("DEFAULT_API_FIELDS", PyList (PyStr <$> DEFAULT_API_FIELDS));
      ("API_RETRY_CONFIG", PyDict API_RETRY_CONFIG);
      ("LOGGING_CONFIG", PyDict LOGGING_CONFIG);
      ("BIGQUERY_CONFIG", PyDict BIGQUERY_CONFIG) ].


(** ** String predicates *)

(** [s.startswith(p)]. *)
Fixpoint starts_with (p s : string) : bool :=
  match p, s with
  | EmptyString, _ => true
  | String a p', String b s' => if Ascii.eqb a b then starts_with p' s' else false
  | String _ _, EmptyString => false
  end.

(** The offsets, counted from [i], at which [sub] occurs in [s], in
    increasing order. *)
Fixpoint occurrences_from (i : nat) (sub s : string) : list nat :=
  (if starts_with sub s then [i] else []) ++
  match s with
  | EmptyString => []
  | String _ s' => occurrences_from (S i) sub s'
  end.

Definition occurrences (sub s : string) : list nat := occurrences_from 0 sub s.

(** [sub in s]. *)
Definition contains (sub s : string) : bool :=
  match occurrences sub s with [] => false | _ :: _ => true end.

(** [s.find(sub)], with [None] for Python's -1. *)
Definition find (sub s : string) : option nat := head (occurrences sub s).

Fixpoint string_take (n : nat) (s : string) : string :=
  match n, s with
  | S n', String c s' => String c (string_take n' s')
  | _, _ => EmptyString
  end.

Fixpoint string_drop (n : nat) (s : string) : string :=
  match n, s with
  | S n', String _ s' => string_drop n' s'
  | _, _ => s
  end.

(** [s.endswith(suf)]. *)
Definition ends_with (suf s : string) : bool :=
  (String.length suf <=? String.length s)%nat &&
  String.eqb (string_drop (String.length s - String.length suf) s) suf.

(** [s.removesuffix(suf)] when [s] ends with [suf]. *)
Definition strip_suffix (suf s : string) : option string :=
  if ends_with suf s
  then Some (string_take (String.length s - String.length suf) s)
  else None.

(** *** %-style format strings *)

(** The conversion types of Python's %-formatting. *)
Definition is_conversion_type (c : ascii) : bool :=
  contains (String c EmptyString) "diouxXeEfFgGcrsa".

(** The scanner reads a format string one character at a time. It accepts
    plain text, the escape [%%], a specifier with a mapping key [%(key)t]
    and a positional specifier [%t], where [t] is a conversion type; flags,
    width and precision are outside the model and give [None], as does a
    specifier that is cut short. *)
Inductive scan_state : Type :=
  | InText
  | AfterPercent
  | InKey (key : string)
  | AfterKey (key : string).

Fixpoint scan (st : scan_state) (s : string)
  : option (list (option string * ascii)) :=
  match s with
  | EmptyString =>
      match st with InText => Some [] | _ => None end
  | String c s' =>
      match st with
      | InText =>
          if Ascii.eqb c "%" then scan AfterPercent s' else scan InText s'
      | AfterPercent =>
          if Ascii.eqb c "%" then scan InText s'
          else if Ascii.eqb c "(" then scan (InKey EmptyString) s'
          else if is_conversion_type c then cons (None, c) <$> scan InText s'
          else None
      | InKey key =>
          if Ascii.eqb c ")" then scan (AfterKey key) s'
          else scan (InKey (key +:+ String c EmptyString)) s'
      | AfterKey key =>
          if is_conversion_type c
          then cons (Some key, c) <$> scan InText s'
          else None
      end
  end.

(** The specifiers of a format string, in order: mapping key (if any) and
    conversion type of each. *)
Definition placeholders (fmt : string) : option (list (option string * ascii)) :=
  scan InText fmt.

(** The text of the specifier [%(key)s]. *)
Definition placeholder (key : string) : string := "%(" +:+ key +:+ ")s".

(** A mapping key that is an identifier character by character. *)
Definition is_word_char (c : ascii) : bool :=
  let n := nat_of_ascii c in
  ((48 <=? n) && (n <=? 57) || (65 <=? n) && (n <=? 90)
   || (97 <=? n) && (n <=? 122) || (n =? 95))%nat.

Fixpoint all_chars (f : ascii -> bool) (s : string) : bool :=
  match s with
  | EmptyString => true
  | String c s' => f c && all_chars f s'
  end.

(** *** Vocabularies of the consumers *)

(** The level names of Python's [logging] module. *)
Definition logging_level_names : list string :=
  ["CRITICAL"; "FATAL"; "ERROR"; "WARN"; "WARNING"; "INFO"; "DEBUG"; "NOTSET"].

(** The conflict modes a table load accepts for [if_exists]. *)
Inductive if_exists_mode : Type :=
  | ModeFail
  | ModeReplace
  | ModeAppend.

Definition if_exists_of_string (s : string) : option if_exists_mode :=
  if String.eqb s "fail" then Some ModeFail
  else if String.eqb s "replace" then Some ModeReplace
  else if String.eqb s "append" then Some ModeAppend
  else None.

(** * Properties *)

(** ** Strings *)

(** stdpp keeps [+:+] folded under [simpl]; these two equations unfold it. *)
Lemma string_app_nil (q : string) : "" +:+ q = q.
Proof. reflexivity. Qed.

Lemma string_app_cons (a : ascii) (p q : string) :
  String a p +:+ q = String a (p +:+ q).
Proof. reflexivity. Qed.

Ltac str_simpl :=
  simpl; rewrite ?string_app_cons, ?string_app_nil; simpl.
Ltac str_simpl_in H :=
  simpl in H; rewrite ?string_app_cons, ?string_app_nil in H; simpl in H.

Lemma starts_with_spec (p s : string) :
  starts_with p s = true <-> exists post, s = p +:+ post.
Proof.
  revert s. induction p as [|a p IH]; intros s; simpl.
  - split; [intros _; by exists s | done].
  - destruct s as [|b s].
    + split; [done | intros [post H]; discriminate H].
    + destruct (Ascii.eqb_spec a b) as [->|Hne].
      * rewrite IH. split; intros [post H]; exists post.
        -- by rewrite H.
        -- str_simpl_in H. by injection H.
      * split; [done | intros [post H]; str_simpl_in H; injection H; congruence].
Qed.

Lemma string_length_app (p q : string) :
  String.length (p +:+ q) = (String.length p + String.length q)%nat.
Proof. induction p as [|a p IH]; str_simpl; [done | by rewrite IH]. Qed.

Lemma string_app_assoc (p q r : string) : (p +:+ q) +:+ r = p +:+ (q +:+ r).
Proof. induction p as [|a p IH]; str_simpl; [done | by rewrite IH]. Qed.

Lemma string_take_app (p q : string) : string_take (String.length p) (p +:+ q) = p.
Proof. induction p as [|a p IH]; str_simpl; [by destruct q | by rewrite IH]. Qed.

Lemma string_drop_app (p q : string) : string_drop (String.length p) (p +:+ q) = q.
Proof. induction p as [|a p IH]; str_simpl; done. Qed.

Lemma string_take_drop (n : nat) (s : string) :
  string_take n s +:+ string_drop n s = s.
Proof.
  revert s. induction n as [|n IH]; intros [|c s]; str_simpl; try done.
  by rewrite IH.
Qed.

Lemma occurrences_from_spec (i : nat) (sub s : string) (n : nat) :
  n ∈ occurrences_from i sub s <->
  exists pre post, s = pre +:+ sub +:+ post /\ n = (i + String.length pre)%nat.
Proof.
  revert i. induction s as [|c s IH]; intros i; simpl.
  - rewrite app_nil_r. split.
    + destruct (starts_with sub "") eqn:E; [|by intros ?%elem_of_nil].
      intros ->%list_elem_of_singleton.
      apply starts_with_spec in E as [post E].
      exists "", post. str_simpl. split; [done | lia].
    + intros ([|a pre] & post & E & ->); [|discriminate E].
      str_simpl_in E. rewrite Nat.add_0_r.
      assert (starts_with sub "" = true) as ->
        by (apply starts_with_spec; by exists post).
      by apply list_elem_of_singleton.
  - rewrite elem_of_app, IH. split.
    + intros [H | (pre & post & E & ->)].
      * destruct (starts_with sub (String c s)) eqn:E; [|by apply elem_of_nil in H].
        apply list_elem_of_singleton in H as ->.
        apply starts_with_spec in E as [post E].
        exists "", post. str_simpl. split; [done | lia].
      * exists (String c pre), post. str_simpl. split; [by rewrite E | lia].
    + intros ([|a pre] & post & E & ->).
      * left. str_simpl_in E. rewrite Nat.add_0_r.
        assert (starts_with sub (String c s) = true) as ->
          by (apply starts_with_spec; by exists post).
        by apply list_elem_of_singleton.
      * right. str_simpl_in E. injection E as -> E. exists pre, post.
        simpl. split; [done | lia].
Qed.

Lemma contains_spec (sub s : string) :
  contains sub s = true <-> exists pre post, s = pre +:+ sub +:+ post.
Proof.
  unfold contains, occurrences. split.
  - destruct (occurrences_from 0 sub s) as [|n l] eqn:E; [done | intros _].
    assert (n ∈ occurrences_from 0 sub s) as H by (rewrite E; left).
    apply occurrences_from_spec in H as (pre & post & H & _). by exists pre, post.
  - intros (pre & post & H).
    assert (String.length pre ∈ occurrences_from 0 sub s) as Hin
      by (apply occurrences_from_spec; by exists pre, post).
    destruct (occurrences_from 0 sub s); [by apply elem_of_nil in Hin | done].
Qed.

Lemma ends_with_spec (suf s : string) :
  ends_with suf s = true <-> exists pre, s = pre +:+ suf.
Proof.
  unfold ends_with. rewrite andb_true_iff, Nat.leb_le, String.eqb_eq. split.
  - intros [_ H]. remember (String.length s - String.length suf)%nat as k.
    exists (string_take k s). rewrite <- H. by rewrite string_take_drop.
  - intros [pre ->]. rewrite string_length_app. split; [lia|].
    replace (String.length pre + String.length suf - String.length suf)%nat
      with (String.length pre) by lia.
    apply string_drop_app.
Qed.

Lemma strip_suffix_spec (suf s p : string) :
  strip_suffix suf s = Some p <-> s = p +:+ suf.
Proof.
  unfold strip_suffix. split.
  - destruct (ends_with suf s) eqn:E; [|done]. intros [= <-].
    apply ends_with_spec in E as [pre ->]. rewrite string_length_app.
    replace (String.length pre + String.length suf - String.length suf)%nat
      with (String.length pre) by lia.
    by rewrite string_take_app.
  - intros ->.
    assert (ends_with suf (p +:+ suf) = true) as ->
      by (apply ends_with_spec; by exists p).
    rewrite string_length_app.
    replace (String.length p + String.length suf - String.length suf)%nat
      with (String.length p) by lia.
    by rewrite string_take_app.
Qed.

(** ** Executing a module body *)

Section ModuleExec.

Implicit Types (body pre post : list binding) (ns : gmap string pyval).

Lemma exec_app pre post ns :
  exec (pre ++ post) ns =
  match exec pre ns with Some ns' => exec post ns' | None => None end.
Proof.
  revert ns. induction pre as [|b pre IH]; intros ns; simpl; [done|].
  destruct (exec_binding b ns); [apply IH | done].
Qed.



End ModuleExec.

Lemma config_module_targets :
  target <$> config_module =
  ["__doc__"; "FB_API_VERSION"; "FB_BASE_URL"; "DEFAULT_API_FIELDS";
   "API_RETRY_CONFIG"; "LOGGING_CONFIG"; "BIGQUERY_CONFIG"].
Proof. reflexivity. Qed.

Lemma config_module_exec (ns : gmap string pyval) :
  exec config_module ns = Some (config_namespace ∪ ns).
Proof.
  unfold config_module, config_namespace, dict_display, exec, exec_binding.
  simpl. unfold base_url_fstring. rewrite lookup_insert_eq. simpl.
  f_equal. rewrite <- !insert_union_l. by rewrite (left_id ∅ (∪)).
Qed.

(** ** The endpoint constants *)

(** C1. The endpoint constants are the two strings [FB_API_VERSION] and
    [FB_BASE_URL]; the base URL is derived from the version and the version
    occurs in it as a substring, whatever the version string is. *)
Theorem base_url_embeds_version :
  (forall v : string, contains v (base_url_of v) = true) /\
  FB_BASE_URL = base_url_of FB_API_VERSION /\
  contains FB_API_VERSION FB_BASE_URL = true /\
  (exists pre post : string, FB_BASE_URL = pre +:+ FB_API_VERSION +:+ post) /\
  forall ns : gmap string pyval,
  exists (ns' : gmap string pyval) (version url : string),
    exec config_module ns = Some ns' /\
    ns' !! "FB_API_VERSION" = Some (PyStr version) /\
    ns' !! "FB_BASE_URL" = Some (PyStr url) /\
    contains version url = true.
Proof.
  assert (forall v, contains v (base_url_of v) = true) as Hall.
  { intros v. apply contains_spec. exists graph_host, "".
    unfold base_url_of. f_equal.
    induction v as [|c v IH]; str_simpl; [done | by rewrite <- IH]. }
  split; [exact Hall|]. split; [reflexivity|]. split; [apply Hall|].
  split; [apply contains_spec, Hall|].
  intros ns. exists (config_namespace ∪ ns), FB_API_VERSION, FB_BASE_URL.
  split; [apply config_module_exec|].
  split; [by apply lookup_union_Some_l|].
  split; [by apply lookup_union_Some_l | apply Hall].
Qed.

(** C8. [FB_BASE_URL] is the prefix ["https://graph.facebook.com/"] followed
    by [FB_API_VERSION]; with the version ["v20.0"] it is exactly
    ["https://graph.facebook.com/v20.0"], which does not end with a slash,
    and that is the value the module binds to the name. *)
Theorem base_url_value :
  FB_BASE_URL = "https://graph.facebook.com/" +:+ FB_API_VERSION /\
  FB_API_VERSION = "v20.0" /\
  FB_BASE_URL = "https://graph.facebook.com/v20.0" /\
  ends_with "/" FB_BASE_URL = false /\
  forall ns : gmap string pyval,
    exec config_module ns ≫= (.!! "FB_BASE_URL")
    = Some (PyStr "https://graph.facebook.com/v20.0").
Proof.
  repeat split; try reflexivity.
  intros ns. rewrite config_module_exec. simpl.
  apply lookup_union_Some_l. reflexivity.
Qed.

(** ** The default field list *)

(** C2. [DEFAULT_API_FIELDS] has no duplicate entry and every entry is a
    non-empty string; the list object the module binds to the name holds
    these entries as [str] values. *)
Theorem default_fields_distinct_nonempty :
  NoDup DEFAULT_API_FIELDS /\
  Forall (fun f : string => f <> "") DEFAULT_API_FIELDS /\
  exists items : list pyval,
    config_namespace !! "DEFAULT_API_FIELDS" = Some (PyList items) /\
    items = PyStr <$> DEFAULT_API_FIELDS /\
    Forall (fun v => is_str v = true) items.
Proof.
  split; [|split].
  - apply (bool_decide_unpack _). vm_compute. reflexivity.
  - unfold DEFAULT_API_FIELDS. repeat (constructor; [discriminate|]). constructor.
  - eexists. split; [reflexivity|]. split; [reflexivity|].
    unfold DEFAULT_API_FIELDS. repeat (constructor; [reflexivity|]). constructor.
Qed.

(** A field name ending in [_name] has its [_id] companion in the list, and
    conversely. *)
Lemma default_fields_paired (p : string) :
  (p +:+ "_name") ∈ DEFAULT_API_FIELDS <-> (p +:+ "_id") ∈ DEFAULT_API_FIELDS.
Proof.
  assert (forall f, f ∈ DEFAULT_API_FIELDS <-> bool_decide (f ∈ DEFAULT_API_FIELDS) = true)
    as Hdec by (intros f; by rewrite bool_decide_eq_true).
  split; intros H; unfold DEFAULT_API_FIELDS in H;
    repeat (apply elem_of_cons in H as [H|H]);
    try (by apply elem_of_nil in H);
    symmetry in H; apply strip_suffix_spec in H; vm_compute in H;
    try discriminate H; injection H as <-; apply Hdec; vm_compute; reflexivity.
Qed.

(** C9. For each of the entity prefixes [campaign], [adset] and [ad], both
    the [_name] field and the [_id] field are in [DEFAULT_API_FIELDS]; more
    generally a [_name] field is in the list exactly when the [_id] field of
    the same prefix is. *)
Theorem default_fields_name_id_pairs :
  Forall (fun p : string =>
            (p +:+ "_name") ∈ DEFAULT_API_FIELDS /\
            (p +:+ "_id") ∈ DEFAULT_API_FIELDS)
         ["campaign"; "adset"; "ad"] /\
  forall p : string,
    (p +:+ "_name") ∈ DEFAULT_API_FIELDS <-> (p +:+ "_id") ∈ DEFAULT_API_FIELDS.
Proof.
  split; [|exact default_fields_paired].
  repeat (constructor; [split; apply (bool_decide_unpack _); vm_compute; reflexivity|]).
  constructor.
Qed.

Lemma default_fields_name_id_pairs_witness :
  ("ad" +:+ "_name") ∈ DEFAULT_API_FIELDS /\ ("ad" +:+ "_id") ∈ DEFAULT_API_FIELDS.
Proof.
  assert (("ad" +:+ "_name") ∈ DEFAULT_API_FIELDS) as H
    by (apply (bool_decide_unpack _); vm_compute; reflexivity).
  split; [exact H|].
  exact (proj1 (proj2 default_fields_name_id_pairs "ad") H).
Defined.

(** ** The retry policy *)

(** C3. In [API_RETRY_CONFIG] the attempt count ["total"] is a positive
    integer and every element of ["status_forcelist"] is an integer between
    500 and 599 inclusive. *)
Theorem retry_total_positive_codes_5xx :
  (exists n : Z, API_RETRY_CONFIG !! "total" = Some (PyInt n) /\ 0 < n) /\
  exists codes : list pyval,
    API_RETRY_CONFIG !! "status_forcelist" = Some (PyList codes) /\
    Forall (fun v => exists c : Z, v = PyInt c /\ 500 <= c <= 599) codes.
Proof.
  split.
  - exists 3. split; [reflexivity | lia].
  - eexists. split; [reflexivity|].
    repeat (constructor; [eexists; split; [reflexivity | lia]|]). constructor.
Qed.

(** C5. [API_RETRY_CONFIG] has exactly the three keys ["total"],
    ["backoff_factor"] and ["status_forcelist"]: an integer, a number, and a
    collection of integers without duplicates. *)
Theorem retry_config_shape :
  dom API_RETRY_CONFIG = {[ "total"; "backoff_factor"; "status_forcelist" ]} /\
  size API_RETRY_CONFIG = 3%nat /\
  (exists n : Z, API_RETRY_CONFIG !! "total" = Some (PyInt n)) /\
  (exists v : pyval,
     API_RETRY_CONFIG !! "backoff_factor" = Some v /\ is_numeric v = true) /\
  exists codes : list Z,
    API_RETRY_CONFIG !! "status_forcelist" = Some (PyList (PyInt <$> codes)) /\
    NoDup codes.
Proof.
  split; [vm_compute; reflexivity|]. split; [vm_compute; reflexivity|].
  split; [by exists 3|]. split; [by exists (PyInt 1)|].
  exists [500; 502; 503; 504]. split; [reflexivity|].
  apply (bool_decide_unpack _). vm_compute. reflexivity.
Qed.

(** ** The bulk-load policy *)

(** C4. [BIGQUERY_CONFIG] consists of the conflict mode ["if_exists"], whose
    value is the mode string ["replace"] of the enumeration, and the batch
    size ["chunksize"], a positive integer. *)
Theorem bigquery_mode_and_chunksize :
  dom BIGQUERY_CONFIG = {[ "if_exists"; "chunksize" ]} /\
  (exists mode : string,
     BIGQUERY_CONFIG !! "if_exists" = Some (PyStr mode) /\
     mode = "replace" /\
     if_exists_of_string mode = Some ModeReplace) /\
  exists n : Z, BIGQUERY_CONFIG !! "chunksize" = Some (PyInt n) /\ 0 < n.
Proof.
  split; [vm_compute; reflexivity|]. split.
  - by exists "replace".
  - exists 10000. split; [reflexivity | lia].
Qed.

(** ** The logging policy *)

(** C6. [LOGGING_CONFIG] gives a level that is one of the level names of
    [logging], a format string that contains a specifier [%(key)s] with an
    identifier as key, a list of handler names that are non-empty strings,
    and a non-empty log file path. *)
Theorem logging_config_shape :
  (exists lvl : string,
     LOGGING_CONFIG !! "level" = Some (PyStr lvl) /\ lvl ∈ logging_level_names) /\
  (exists fmt pre key post : string,
     LOGGING_CONFIG !! "format" = Some (PyStr fmt) /\
     fmt = pre +:+ placeholder key +:+ post /\
     key <> "" /\ all_chars is_word_char key = true) /\
  (exists hs : list string,
     LOGGING_CONFIG !! "handlers" = Some (PyList (PyStr <$> hs)) /\
     Forall (fun h : string => h <> "") hs) /\
  exists path : string,
    LOGGING_CONFIG !! "log_file" = Some (PyStr path) /\ path <> "".
Proof.
  split; [|split; [|split]].
  - exists "INFO". split; [reflexivity|].
    apply (bool_decide_unpack _). vm_compute. reflexivity.
  - exists "%(asctime)s - %(levelname)s - %(message)s", "", "asctime",
      " - %(levelname)s - %(message)s".
    repeat split; done.
  - exists ["FileHandler"; "StreamHandler"]. split; [reflexivity|].
    repeat (constructor; [discriminate|]). constructor.
  - by exists "meta_ads.log".
Qed.

(** C10. The logging format contains each of [%(asctime)s], [%(levelname)s]
    and [%(message)s] at exactly one offset, the three offsets increase in
    that order, and these three are all the specifiers of the format: it
    scans to the three keys, has three [%] characters, and is the three
    specifiers joined by a separator without [%]. *)
Theorem logging_format_placeholders :
  exists fmt : string,
    LOGGING_CONFIG !! "format" = Some (PyStr fmt) /\
    (exists i j k : nat,
       occurrences (placeholder "asctime") fmt = [i] /\
       occurrences (placeholder "levelname") fmt = [j] /\
       occurrences (placeholder "message") fmt = [k] /\
       (i < j < k)%nat) /\
    placeholders fmt
    = Some [(Some "asctime", "s"%char); (Some "levelname", "s"%char);
            (Some "message", "s"%char)] /\
    length (occurrences "%" fmt) = 3%nat /\
    exists sep : string,
      fmt = placeholder "asctime" +:+ sep +:+ placeholder "levelname"
            +:+ sep +:+ placeholder "message" /\
      contains "%" sep = false.
Proof.
  exists "%(asctime)s - %(levelname)s - %(message)s".
  split; [reflexivity|]. split.
  - exists 0%nat, 14%nat, 30%nat. repeat split; [reflexivity.. | lia | lia].
  - split; [reflexivity|]. split; [reflexivity|].
    exists " - ". split; reflexivity.
Qed.

(** ** Initialisation of the module *)




(** * Further properties of the module *)

(** ** The f-string of the base URL as a function of the version *)

Lemma string_drop_add (p v : string) (k : nat) :
  string_drop (String.length p + k) (p +:+ v) = string_drop k v.
Proof. induction p as [|a p IH]; str_simpl; done. Qed.

Lemma ends_with_app (suf p v : string) :
  (String.length suf <= String.length v)%nat ->
  ends_with suf (p +:+ v) = ends_with suf v.
Proof.
  intros Hle. unfold ends_with. rewrite string_length_app.
  replace (String.length p + String.length v - String.length suf)%nat
    with (String.length p + (String.length v - String.length suf))%nat by lia.
  rewrite string_drop_add. f_equal.
  transitivity true; [|symmetry]; apply Nat.leb_le; lia.
Qed.

(** X1. Whatever the version string, the base URL starts with the host
    prefix and what follows the prefix is the version, unchanged; two
    versions therefore never give the same URL. *)
Theorem base_url_roundtrip :
  (forall v : string,
     starts_with graph_host (base_url_of v) = true /\
     string_drop (String.length graph_host) (base_url_of v) = v /\
     String.length (base_url_of v) = (27 + String.length v)%nat) /\
  forall v w : string, base_url_of v = base_url_of w -> v = w.
Proof.
  assert (forall v, string_drop (String.length graph_host) (base_url_of v) = v)
    as Hdrop by (intros v; apply string_drop_app).
  split.
  - intros v. split; [|split].
    + apply starts_with_spec. by exists v.
    + apply Hdrop.
    + unfold base_url_of. by rewrite string_length_app.
  - intros v w H. rewrite <- (Hdrop v), <- (Hdrop w). by rewrite H.
Qed.

Lemma base_url_roundtrip_witness :
  base_url_of "v20.0" = base_url_of FB_API_VERSION /\ "v20.0" = FB_API_VERSION.
Proof.
  assert (base_url_of "v20.0" = base_url_of FB_API_VERSION) as H by reflexivity.
  split; [exact H|].
  exact (proj2 base_url_roundtrip "v20.0" FB_API_VERSION H).
Defined.

(** X2. The base URL ends with a slash exactly when the version does; with
    an empty version it is the bare host prefix, which ends with a slash. *)
Theorem base_url_trailing_slash :
  ends_with "/" (base_url_of "") = true /\
  forall v : string,
    v <> "" -> ends_with "/" (base_url_of v) = ends_with "/" v.
Proof.
  split; [reflexivity|].
  intros v Hv. unfold base_url_of. apply ends_with_app.
  destruct v; [done | simpl; lia].
Qed.

Lemma base_url_trailing_slash_witness :
  FB_API_VERSION <> "" /\
  ends_with "/" (base_url_of FB_API_VERSION) = ends_with "/" FB_API_VERSION.
Proof.
  assert (FB_API_VERSION <> "") as H by discriminate.
  split; [exact H|].
  exact (proj2 base_url_trailing_slash FB_API_VERSION H).
Defined.

(** ** Importing the module into a namespace *)

(** X3. The statements of the module body, executed in any namespace,
    rebind [__doc__] and the six constants to the values of the source,
    whatever these names were bound to before, and write no other name;
    executing the body a second time changes nothing. *)
Theorem config_import_frame_idempotent :
  (forall (ns : gmap string pyval) (x : string),
     x ∈ target <$> config_module ->
     (exec config_module ns ≫= (.!! x)) = config_namespace !! x) /\
  (forall (ns : gmap string pyval) (x : string),
     x ∉ target <$> config_module ->
     (exec config_module ns ≫= (.!! x)) = ns !! x) /\
  forall ns : gmap string pyval,
    exec (config_module ++ config_module) ns = exec config_module ns.
Proof.
  assert (forall x : string,
            x ∈ target <$> config_module <-> is_Some (config_namespace !! x))
    as Hdom.
  { intros x. rewrite config_module_targets. split.
    - intros H. repeat (apply elem_of_cons in H as [->|H]); try by eexists.
      by apply elem_of_nil in H.
    - intros [v Hv]. unfold config_namespace, dict_display in Hv. simpl in Hv.
      repeat (apply lookup_insert_Some in Hv as [[<- _]|[_ Hv]];
              [apply (bool_decide_unpack _); vm_compute; reflexivity|]).
      by rewrite lookup_empty in Hv. }
  split; [|split].
  - intros ns x [v Hv]%Hdom. rewrite config_module_exec. simpl.
    rewrite Hv. by apply lookup_union_Some_l.
  - intros ns x Hx. rewrite config_module_exec. simpl.
    apply lookup_union_r. destruct (config_namespace !! x) eqn:E; [|done].
    exfalso. apply Hx, Hdom. by eexists.
  - intros ns. rewrite exec_app, !config_module_exec.
    f_equal. by rewrite (assoc_L (∪)), (idemp_L (∪)).
Qed.

Lemma config_import_frame_idempotent_witness :
  ("__name__" ∉ target <$> config_module) /\
  ("FB_BASE_URL" ∈ target <$> config_module) /\
  (exec config_module {[ "__name__" := PyStr "config" ]} ≫= (.!! "__name__"))
  = ({[ "__name__" := PyStr "config" ]} : gmap string pyval) !! "__name__" /\
  (exec config_module {[ "FB_BASE_URL" := PyInt 0 ]} ≫= (.!! "FB_BASE_URL"))
  = config_namespace !! "FB_BASE_URL".
Proof.
  assert ("__name__" ∉ target <$> config_module) as H1
    by (apply (bool_decide_unpack _); vm_compute; reflexivity).
  assert ("FB_BASE_URL" ∈ target <$> config_module) as H2
    by (apply (bool_decide_unpack _); vm_compute; reflexivity).
  split; [exact H1|]. split; [exact H2|]. split.
  - exact (proj1 (proj2 config_import_frame_idempotent) _ "__name__" H1).
  - exact (proj1 config_import_frame_idempotent _ "FB_BASE_URL" H2).
Defined.

(** X4. The f-string is evaluated once, when the module runs: an assignment
    to [FB_API_VERSION] made after the import replaces that one binding and
    nothing else in the namespace, and [FB_BASE_URL] keeps the URL built from
    the version of the source. *)
Theorem base_url_not_recomputed (ns : gmap string pyval) (w : string) :
  exists ns1 ns2 : gmap string pyval,
    exec config_module ns = Some ns1 /\
    exec (config_module ++ [Bind "FB_API_VERSION" (literal (PyStr w))]) ns
    = Some ns2 /\
    ns2 = <["FB_API_VERSION" := PyStr w]> ns1 /\
    ns2 !! "FB_API_VERSION" = Some (PyStr w) /\
    ns2 !! "FB_BASE_URL" = Some (PyStr (base_url_of "v20.0")) /\
    ns1 !! "FB_BASE_URL" = Some (PyStr (base_url_of "v20.0")).
Proof.
  exists (config_namespace ∪ ns),
         (<["FB_API_VERSION" := PyStr w]> (config_namespace ∪ ns)).
  split; [apply config_module_exec|]. split; [|split; [reflexivity|]].
  - by rewrite exec_app, config_module_exec.
  - split; [apply lookup_insert_eq|]. split.
    + rewrite lookup_insert_ne by done. by apply lookup_union_Some_l.
    + by apply lookup_union_Some_l.
Qed.
